(** * AvroHelper: the record-format (Avro) schema adapter

    A shallow embedding of [src/AvroHelper.ts].  The class is a thin layer
    over three things it does not define itself: the JavaScript runtime
    (property reads, truthiness, string conversion, [JSON.parse]), the
    [avsc] library ([avro.Type.forSchema]) and the declarations of
    [./@types] and [./errors].  The runtime's value universe and the
    operations whose meaning is fixed by the language are defined here;
    what belongs to an engine or to a library is an interface
    ([JSEngine], [Avsc], [Types]) over which every statement is
    quantified.  Module [Reference] gives one instance of each
    interface, and module [Runs] runs the statements on it, on concrete
    schema texts. *)

From Stdlib Require Import String Ascii List ZArith Bool Lia DecimalString.
Import ListNotations.
Local Open Scope string_scope.

Set Implicit Arguments.
Set Warnings "-register-all".

(** ** Completions: a call either returns or throws *)

(** The classes of thrown values that can reach a caller of the adapter:
    [SyntaxError] from [JSON.parse], [TypeError] from reading a property
    of [null] or [undefined], the plain [Error] of a library, and the
    one class the adapter throws itself (imported from [./errors]). *)
Inductive JSError : Type :=
| SyntaxError (message : string)
| TypeError (message : string)
| Error (message : string)
| ConfluentSchemaRegistryArgumentError (message : string).

Inductive Completion (A : Type) : Type :=
| Normal (a : A)
| Throw (e : JSError).

Arguments Normal {A} a.
Arguments Throw {A} e.

Definition bind {A B : Type} (c : Completion A) (k : A -> Completion B)
  : Completion B :=
  match c with
  | Normal a => k a
  | Throw e => Throw e
  end.

Declare Scope completion_scope.
Delimit Scope completion_scope with completion.
Notation "x <- c ;; k" := (bind c (fun x => k))
  (at level 61, c at next level, right associativity) : completion_scope.
Local Open Scope completion_scope.

Definition returns {A : Type} (c : Completion A) : bool :=
  match c with Normal _ => true | Throw _ => false end.

(** ** JavaScript values *)

(** The values the adapter handles are data: what [JSON.parse] returns,
    plus [undefined].  The number type is left to the engine. *)
Inductive JSValue (N : Type) : Type :=
| JUndefined
| JNull
| JBoolean (b : bool)
| JNumber (n : N)
| JString (s : string)
| JArray (elements : list (JSValue N))
| JObject (properties : list (string * JSValue N)).

Arguments JUndefined {N}.
Arguments JNull {N}.
Arguments JBoolean {N} b.
Arguments JNumber {N} n.
Arguments JString {N} s.
Arguments JArray {N} elements.
Arguments JObject {N} properties.

(** The first binding of a key in a property list. *)
Fixpoint lookup {A : Type} (key : string) (l : list (string * A)) : option A :=
  match l with
  | [] => None
  | (k, v) :: rest => if String.eqb k key then Some v else lookup key rest
  end.

(** [sep]-separated concatenation of the images of the elements, the loop
    of [Array.prototype.join]. *)
Definition join_with {A : Type} (f : A -> string) (sep : string)
  : list A -> string :=
  fix go (l : list A) : string :=
    match l with
    | [] => EmptyString
    | [x] => f x
    | x :: rest => f x ++ sep ++ go rest
    end.

(** ** The engine *)

(** What the language leaves to the implementation, or what is too large
    to restate here: numbers, the text of a [TypeError], and the JSON
    parser. *)
Class JSEngine : Type := {
  Number : Type;
  (** [+0], [-0] and [NaN] are the falsy numbers *)
  Number_isFalsy : Number -> bool;
  Number_toString : Number -> string;
  (** message of the [TypeError] for reading property [p] of [v] *)
  cannotRead : JSValue Number -> string -> string;
  JSON_parse : string -> Completion (JSValue Number)
}.

(** The values of an engine. *)
Abbreviation Value := (JSValue Number).

Section Runtime.
Context {engine : JSEngine}.

(** [ToBoolean]: the test of [if] and of [!]. *)
Definition ToBoolean (v : Value) : bool :=
  match v with
  | JUndefined | JNull => false
  | JBoolean b => b
  | JNumber n => negb (Number_isFalsy n)
  | JString s => negb (String.eqb s EmptyString)
  | JArray _ | JObject _ => true
  end.

(** [v == null] *)
Definition isNullish (v : Value) : bool :=
  match v with JUndefined | JNull => true | _ => false end.

(** [v != null] *)
Definition notNull (v : Value) : bool := negb (isNullish v).

(** [v.p] for the property names the adapter reads ([schema], [name],
    [type], [namespace]): none of them is defined on a built-in
    prototype, so primitives and arrays answer [undefined] and an
    object answers with its own property.  Reading from [null] or
    [undefined] throws. *)
Definition Get (v : Value) (p : string) : Completion Value :=
  match v with
  | JUndefined | JNull => Throw (TypeError (cannotRead v p))
  | JObject props =>
      match lookup p props with
      | Some x => Normal x
      | None => Normal JUndefined
      end
  | _ => Normal JUndefined
  end.

(** [ToString], as applied by template literals and by [join]. *)
Fixpoint ToString (v : Value) : string :=
  match v with
  | JUndefined => "undefined"
  | JNull => "null"
  | JBoolean true => "true"
  | JBoolean false => "false"
  | JNumber n => Number_toString n
  | JString s => s
  | JArray l =>
      join_with
        (fun x => match x with
                  | JUndefined | JNull => EmptyString
                  | _ => ToString x
                  end) "," l
  | JObject _ => "[object Object]"
  end.

(** [l.join(separator)]: [undefined] and [null] elements contribute the
    empty string. *)
Definition Array_join (l : list Value) (separator : string) : string :=
  join_with (fun x => if isNullish x then EmptyString else ToString x)
    separator l.

End Runtime.

(** ** The [avsc] library *)

(** [avro.Type.forSchema(schema, opts)] compiles a schema object into a
    type, or throws.  Of the compiled type the adapter reads [name]
    only, which the library declares as [string | undefined]. *)
Class Avsc {engine : JSEngine} : Type := {
  AvroOptions : Type;
  AvroSchema : Type;
  AvroSchema_name : AvroSchema -> option string;
  forSchema : Value -> option AvroOptions -> Completion AvroSchema
}.

(** ** Declarations of [./@types] *)

(** Modelled from the spec: the enumeration [SchemaType] of [./@types],
    the format tag of a schema, one of three schema families; the
    members carry the names the adapter and the usage guide give them. *)
Inductive SchemaType : Type := AVRO | JSON | PROTOBUF.

(** The run-time value of the enumeration's members, which the absent
    declaration fixes. *)
Class Types : Type := {
  SchemaType_value : SchemaType -> string
}.

(** Modelled from the spec: the interface [ReferenceType] of [./@types],
    a named pointer from one schema to another previously registered
    one, [{ name: string, subject: string, version: int }]. *)
Record ReferenceType : Type := {
  ref_name : string;
  ref_subject : string;
  ref_version : Z
}.

(** Modelled from the spec: the interface [ConfluentSubject] of
    [./@types], [{ name: string }]. *)
Record ConfluentSubject : Type := { name : string }.

(** Modelled from the spec: the interface [ConfluentSchema] of
    [./@types], a format tag and the schema.  The adapter reads them as
    [type] and [schema], and accepts for [schema] either schema text or
    an already parsed schema. *)
Record ConfluentSchema {engine : JSEngine} : Type := {
  type : SchemaType;
  schema : Value
}.

(** Modelled from the spec: the interface [SchemaResponse] of
    [./@types], the result of fetching by id,
    [{ id: int, schemaText: string, schemaType, references }]; the
    adapter reads the text as [data.schema]. *)
Record SchemaResponse : Type := {
  resp_id : Z;
  resp_schema : string;
  resp_schemaType : SchemaType;
  resp_references : list ReferenceType
}.

Section Objects.
Context {engine : JSEngine} {types : Types}.

(** The object a [ConfluentSchema] is at run time. *)
Definition ConfluentSchema_object (cs : ConfluentSchema) : Value :=
  JObject [ ("type", JString (SchemaType_value (type cs)));
            ("schema", schema cs) ].

(** The same object carrying one more property, [name]: still
    assignable to [ConfluentSchema], whose declaration does not forbid
    further properties. *)
Definition ConfluentSchema_named (nm : Value) (cs : ConfluentSchema) : Value :=
  JObject [ ("type", JString (SchemaType_value (type cs)));
            ("schema", schema cs);
            ("name", nm) ].

End Objects.

(** ** The adapter *)

Module AvroHelper.
Section Methods.
Context {engine : JSEngine} {avsc : Avsc} {types : Types}.

(** [private getRawAvroSchema(schema: ConfluentSchema): RawAvroSchema]:
    the [schema] property, through [JSON.parse] when
    [typeof schema.schema === 'string']. *)
Definition getRawAvroSchema (schema : Value) : Completion Value :=
  s <- Get schema "schema";;
  match s with
  | JString text => JSON_parse text
  | _ => Normal s
  end.

(** [private isRawAvroSchema(schema): schema is RawAvroSchema] *)
Definition isRawAvroSchema (schema : Value) : Completion bool :=
  n <- Get schema "name";;
  if notNull n
  then t <- Get schema "type";; Normal (notNull t)
  else Normal false.

(** [public getAvroSchema(schema: ConfluentSchema | RawAvroSchema, opts?)] *)
Definition getAvroSchema (schema : Value) (opts : option AvroOptions)
  : Completion AvroSchema :=
  raw <- isRawAvroSchema schema;;
  rawSchema <- (if raw then Normal schema else getRawAvroSchema schema);;
  forSchema rawSchema opts.

(** The value of [avroSchema.name]. *)
Definition nameOf (avroSchema : AvroSchema) : Value :=
  match AvroSchema_name avroSchema with
  | Some s => JString s
  | None => JUndefined
  end.

(** [public validate(avroSchema: AvroSchema): void] *)
Definition validate (avroSchema : AvroSchema) : Completion unit :=
  if negb (ToBoolean (nameOf avroSchema))
  then Throw (ConfluentSchemaRegistryArgumentError
                ("Invalid name: " ++ ToString (nameOf avroSchema)))
  else Normal tt.

(** [public getSubject(schema, avroSchema, separator): ConfluentSubject] *)
Definition getSubject (schema : Value) (avroSchema : AvroSchema)
    (separator : string) : Completion ConfluentSubject :=
  rawSchema <- getRawAvroSchema schema;;
  namespace <- Get rawSchema "namespace";;
  if negb (ToBoolean namespace)
  then Throw (ConfluentSchemaRegistryArgumentError
                ("Invalid namespace: " ++ ToString namespace))
  else
    nm <- Get rawSchema "name";;
    Normal {| name := Array_join [namespace; nm] separator |}.

(** [public toConfluentSchema(data: SchemaResponse): ConfluentSchema] *)
Definition toConfluentSchema (data : SchemaResponse) : ConfluentSchema :=
  {| type := AVRO; schema := JString (resp_schema data) |}.

(** [getReferences(_schema: AvroConfluentSchema): ReferenceType[] | undefined] *)
Definition getReferences (_schema : ConfluentSchema)
  : option (list ReferenceType) :=
  None.

(** [updateOptionsFromSchemaReferences(options, _referredSchemas)] *)
Definition updateOptionsFromSchemaReferences {ProtocolOptions : Type}
    (options : ProtocolOptions) (_referredSchemas : list Value)
  : ProtocolOptions :=
  options.

End Methods.
End AvroHelper.

Section Requirements.
Context {engine : JSEngine} {avsc : Avsc}.

(** A compiled schema meets the requirement of [validate] when its
    top-level name is a non-empty string. *)
Definition named (avroSchema : AvroSchema) : Prop :=
  exists s : string, AvroSchema_name avroSchema = Some s /\ s <> EmptyString.

End Requirements.

(** ** A reference environment *)

(** One instance of each interface, small enough to read and run.  The
    engine's numbers are the integers a double represents exactly; a
    numeral with a fraction or an exponent, or beyond that range, is
    outside the instance and refused.  Everything else of the JSON
    grammar is accepted as [JSON.parse] accepts it. *)
Module Reference.

Local Open Scope char_scope.
Local Open Scope Z_scope.

Definition dquote : ascii := "034".
Definition backslash : ascii := "092".

Definition code (c : ascii) : Z := Z.of_N (N_of_ascii c).
Definition byte (n : Z) : ascii := ascii_of_N (Z.to_N n).

Definition is_ws (c : ascii) : bool :=
  let n := code c in
  (n =? 32) || (n =? 9) || (n =? 10) || (n =? 13).

Fixpoint skip_ws (s : list ascii) : list ascii :=
  match s with
  | c :: r => if is_ws c then skip_ws r else s
  | [] => []
  end.

Definition digit (c : ascii) : option Z :=
  let n := code c in
  if (48 <=? n) && (n <=? 57) then Some (n - 48) else None.

Definition hex (c : ascii) : option Z :=
  let n := code c in
  if (48 <=? n) && (n <=? 57) then Some (n - 48)
  else if (97 <=? n) && (n <=? 102) then Some (n - 87)
  else if (65 <=? n) && (n <=? 70) then Some (n - 55)
  else None.

Definition hex4 (a b c d : ascii) : option Z :=
  match hex a, hex b, hex c, hex d with
  | Some x, Some y, Some z, Some w => Some (((x * 16 + y) * 16 + z) * 16 + w)
  | _, _, _, _ => None
  end.

Fixpoint digits (acc : Z) (s : list ascii) : Z * list ascii :=
  match s with
  | c :: r =>
      match digit c with
      | Some d => digits (10 * acc + d) r
      | None => (acc, s)
      end
  | [] => (acc, [])
  end.

Definition safe (n : Z) : bool := n <=? 9007199254740991.

(** An optional minus sign, then a single zero or a digit string without
    leading zero; a fraction or an exponent after it is refused. *)
Definition number (s : list ascii) : option (Z * list ascii) :=
  let '(neg, s1) :=
    match s with
    | "-" :: r => (true, r)
    | _ => (false, s)
    end in
  match s1 with
  | c :: r =>
      match digit c with
      | None => None
      | Some d =>
          let '(n, r') := if d =? 0 then (0, r) else digits d r in
          match r' with
          | "." :: _ | "e" :: _ | "E" :: _ => None
          | _ => if safe n then Some (if neg then - n else n, r') else None
          end
      end
  | [] => None
  end.

(** The bytes of a code unit or code point in UTF-8 (a lone surrogate
    is written like any other three-byte value). *)
Definition utf8 (n : Z) : list ascii :=
  if n <? 128 then [byte n]
  else if n <? 2048 then [byte (192 + n / 64); byte (128 + n mod 64)]
  else if n <? 65536 then
    [byte (224 + n / 4096); byte (128 + (n / 64) mod 64);
     byte (128 + n mod 64)]
  else
    [byte (240 + n / 262144); byte (128 + (n / 4096) mod 64);
     byte (128 + (n / 64) mod 64); byte (128 + n mod 64)].

Definition is_high (n : Z) : bool := (55296 <=? n) && (n <=? 56319).
Definition is_low (n : Z) : bool := (56320 <=? n) && (n <=? 57343).
Definition pair_up (hi lo : Z) : Z := 65536 + (hi - 55296) * 1024 + (lo - 56320).

Definition simple_escape (c : ascii) : option ascii :=
  match c with
  | "b" => Some (byte 8)
  | "f" => Some (byte 12)
  | "n" => Some (byte 10)
  | "r" => Some (byte 13)
  | "t" => Some (byte 9)
  | "/" => Some c
  | _ => if Ascii.eqb c dquote || Ascii.eqb c backslash then Some c else None
  end.

(** Output is accumulated in reverse; [pending] is a high surrogate
    waiting for its low half. *)
Definition flush (pending : option Z) (acc : list ascii) : list ascii :=
  match pending with
  | Some hi => rev (utf8 hi) ++ acc
  | None => acc
  end.

(** The characters of a string literal after its opening quote. *)
Fixpoint chars (pending : option Z) (acc : list ascii) (s : list ascii)
  {struct s} : option (string * list ascii) :=
  match s with
  | [] => None
  | c :: r =>
      if Ascii.eqb c dquote
      then Some (string_of_list_ascii (rev (flush pending acc)), r)
      else if Ascii.eqb c backslash then
        match r with
        | "u" :: h1 :: h2 :: h3 :: h4 :: r' =>
            match hex4 h1 h2 h3 h4 with
            | None => None
            | Some n =>
                match pending with
                | Some hi =>
                    if is_low n
                    then chars None (rev (utf8 (pair_up hi n)) ++ acc) r'
                    else if is_high n
                    then chars (Some n) (flush pending acc) r'
                    else chars None (rev (utf8 n) ++ flush pending acc) r'
                | None =>
                    if is_high n then chars (Some n) acc r'
                    else chars None (rev (utf8 n) ++ acc) r'
                end
            end
        | e :: r' =>
            match simple_escape e with
            | Some x => chars None (x :: flush pending acc) r'
            | None => None
            end
        | [] => None
        end
      else if code c <? 32 then None
      else chars None (c :: flush pending acc) r
  end.

(** Defining a property that exists replaces its value in place. *)
Fixpoint define {A : Type} (k : string) (v : A) (l : list (string * A))
  : list (string * A) :=
  match l with
  | [] => [(k, v)]
  | (k', v') :: rest =>
      if String.eqb k' k then (k, v) :: rest else (k', v') :: define k v rest
  end.

Definition V : Type := JSValue Z.

Fixpoint value (fuel : nat) (s : list ascii) : option (V * list ascii) :=
  match fuel with
  | O => None
  | S fuel' =>
      match skip_ws s with
      | "{" :: r =>
          match skip_ws r with
          | "}" :: r' => Some (JObject [], r')
          | r' =>
              match members fuel' [] r' with
              | Some (props, r'') => Some (JObject props, r'')
              | None => None
              end
          end
      | "[" :: r =>
          match skip_ws r with
          | "]" :: r' => Some (JArray [], r')
          | r' =>
              match elements fuel' [] r' with
              | Some (l, r'') => Some (JArray l, r'')
              | None => None
              end
          end
      | "t" :: "r" :: "u" :: "e" :: r => Some (JBoolean true, r)
      | "f" :: "a" :: "l" :: "s" :: "e" :: r => Some (JBoolean false, r)
      | "n" :: "u" :: "l" :: "l" :: r => Some (JNull, r)
      | c :: r =>
          if Ascii.eqb c dquote then
            match chars None [] r with
            | Some (str, r') => Some (JString str, r')
            | None => None
            end
          else
            match number (c :: r) with
            | Some (n, r') => Some (JNumber n, r')
            | None => None
            end
      | [] => None
      end
  end
with elements (fuel : nat) (acc : list V) (s : list ascii)
  : option (list V * list ascii) :=
  match fuel with
  | O => None
  | S fuel' =>
      match value fuel' s with
      | Some (v, r) =>
          match skip_ws r with
          | "," :: r' => elements fuel' (v :: acc) r'
          | "]" :: r' => Some (rev (v :: acc), r')
          | _ => None
          end
      | None => None
      end
  end
with members (fuel : nat) (acc : list (string * V)) (s : list ascii)
  : option (list (string * V) * list ascii) :=
  match fuel with
  | O => None
  | S fuel' =>
      match skip_ws s with
      | c :: r =>
          if Ascii.eqb c dquote then
            match chars None [] r with
            | Some (k, r1) =>
                match skip_ws r1 with
                | ":" :: r2 =>
                    match value fuel' r2 with
                    | Some (v, r3) =>
                        match skip_ws r3 with
                        | "," :: r4 => members fuel' (define k v acc) r4
                        | "}" :: r4 => Some (define k v acc, r4)
                        | _ => None
                        end
                    | None => None
                    end
                | _ => None
                end
            | None => None
            end
          else None
      | [] => None
      end
  end.

(** [JSON.parse(text)]: one value, between optional white space.  Every
    call below spends one unit of fuel, and of two nested calls at least
    one consumes a character; the fuel is twice the length of the text. *)
Definition parse (text : string) : Completion V :=
  let s := list_ascii_of_string text in
  match value (2 * length s + 2) s with
  | Some (v, r) =>
      match skip_ws r with
      | [] => Normal v
      | _ :: _ => Throw (SyntaxError "Unexpected token in JSON")
      end
  | None => Throw (SyntaxError "Unexpected token in JSON")
  end.

Local Open Scope string_scope.

Definition show (n : Z) : string := NilZero.string_of_int (Z.to_int n).

Definition engine : JSEngine := {|
  Number := Z;
  Number_isFalsy := Z.eqb 0;
  Number_toString := show;
  cannotRead := fun v p =>
    "Cannot read properties of "
    ++ match v with JNull => "null" | _ => "undefined" end
    ++ " (reading '" ++ p ++ "')";
  JSON_parse := parse
|}.

(** Schema texts are written with an apostrophe where JSON has the
    quotation mark. *)
Definition json (text : string) : string :=
  string_of_list_ascii
    (map (fun c => if Ascii.eqb c "'" then dquote else c)
         (list_ascii_of_string text)).

(** A stand-in for the library, keeping of a compiled type what the
    adapter can observe: the qualified name of a named type, nothing
    for the others, an [Error] for what is not a schema.  It does not
    check the body of the schema. *)
Record CompiledType : Type := { typeName : option string }.

Definition member (t : string) (l : list string) : bool :=
  existsb (String.eqb t) l.

Definition primitives : list string :=
  ["null"; "boolean"; "int"; "long"; "float"; "double"; "bytes"; "string"].

Definition has_dot (s : string) : bool :=
  existsb (Ascii.eqb ".") (list_ascii_of_string s).

Definition qualify (nm : string) (namespace : option V) : string :=
  if has_dot nm then nm
  else
    match namespace with
    | Some (JString ns) => if String.eqb ns EmptyString then nm else ns ++ "." ++ nm
    | _ => nm
    end.

Definition compile (v : V) (_opts : option unit) : Completion CompiledType :=
  match v with
  | JString t =>
      if member t primitives then Normal {| typeName := None |}
      else Throw (Error ("undefined type name: " ++ t))
  | JArray _ => Normal {| typeName := None |}
  | JObject props =>
      match lookup "type" props with
      | Some (JString t) =>
          if member t ["record"; "error"; "enum"; "fixed"] then
            match lookup "name" props with
            | Some (JString nm) =>
                Normal {| typeName := Some (qualify nm (lookup "namespace" props)) |}
            | _ => Throw (Error "missing name property in schema")
            end
          else if member t ("array" :: "map" :: primitives)
          then Normal {| typeName := None |}
          else Throw (Error ("unknown type: " ++ t))
      | _ => Throw (Error "unknown type")
      end
  | _ => Throw (Error "invalid type")
  end.

Definition avsc : @Avsc engine := {|
  AvroOptions := unit;
  AvroSchema := CompiledType;
  AvroSchema_name := typeName;
  forSchema :=
    compile : JSValue (@Number engine) -> option unit -> Completion CompiledType
|}.

Definition types : Types := {|
  SchemaType_value := fun t =>
    match t with
    | AVRO => "AVRO"
    | JSON => "JSON"
    | PROTOBUF => "PROTOBUF"
    end
|}.

(** The schema of the usage guide's subject example, and variations
    of it. *)
Definition simple : string :=
  json "{'type':'record','name':'Simple','namespace':'com.example','fields':[{'name':'foo','type':'string'}]}".

Definition simple_parsed : V :=
  JObject [ ("type", JString "record"); ("name", JString "Simple");
            ("namespace", JString "com.example");
            ("fields", JArray [JObject [("name", JString "foo");
                                        ("type", JString "string")]]) ].

Definition no_namespace : string :=
  json "{'type':'record','name':'Simple','fields':[]}".

Definition no_name : string :=
  json "{'type':'record','namespace':'com.example','fields':[]}".

Definition truncated : string := json "{'type':'record','name':".

(** The schema of the usage guide's registration example. *)
Definition random_test : string :=
  json "{'type':'record','name':'RandomTest','namespace':'examples','fields':[{'type':'string','name':'fullName'}]}".

Definition unknown_type : string := json "{'type':'recrod','name':'Simple'}".

Definition avro (text : string) : @ConfluentSchema engine :=
  {| type := AVRO; schema := JString text |}.

Definition avro_parsed (v : V) : @ConfluentSchema engine :=
  @Build_ConfluentSchema engine AVRO v.

Definition object : ConfluentSchema -> V :=
  @ConfluentSchema_object engine types.

Definition anonymous : CompiledType := {| typeName := None |}.

(** Further schemas: the same qualified name split at another dot, a
    [null] namespace, a [null] name, a union, and an array schema as an
    object. *)
Definition split_earlier : string :=
  json "{'type':'record','name':'example.Simple','namespace':'com','fields':[]}".



Definition union : string := json "['null','string']".

Definition array_of_strings : V :=
  JObject [ ("type", JString "array"); ("items", JString "string") ].

Definition tagged (t : SchemaType) (v : V) : @ConfluentSchema engine :=
  @Build_ConfluentSchema engine t v.

End Reference.

(** * Properties of the adapter *)

Lemma append_empty_r (s : string) : s ++ EmptyString = s.
Proof.
  induction s as [| c s IH]; simpl.
  - reflexivity.
  - now rewrite IH.
Qed.

Section Facts.
Context {engine : JSEngine} {avsc : Avsc} {types : Types}.
Import AvroHelper.

Lemma ToBoolean_JString (s : string) :
  ToBoolean (JString s) = true <-> s <> EmptyString.
Proof.
  unfold ToBoolean. rewrite negb_true_iff. apply String.eqb_neq.
Qed.

(** Reading from the object of a [ConfluentSchema]. *)
Lemma Get_schema_object (cs : ConfluentSchema) :
  Get (ConfluentSchema_object cs) "schema" = Normal (schema cs).
Proof. reflexivity. Qed.

Lemma isRawAvroSchema_object (cs : ConfluentSchema) :
  isRawAvroSchema (ConfluentSchema_object cs) = Normal false.
Proof. reflexivity. Qed.

Lemma getRawAvroSchema_text (schema : Value) (text : string) :
  Get schema "schema" = Normal (JString text) ->
  getRawAvroSchema schema = JSON_parse text.
Proof. intros H. unfold getRawAvroSchema. now rewrite H. Qed.

(** Once the schema object is at hand, [getSubject] is a test of its
    namespace followed by a join. *)
Lemma getSubject_of_raw (schema : Value) (a : AvroSchema)
    (separator : string) (raw ns : Value) :
  getRawAvroSchema schema = Normal raw ->
  Get raw "namespace" = Normal ns ->
  getSubject schema a separator =
    if ToBoolean ns
    then nm <- Get raw "name";;
         Normal {| name := Array_join [ns; nm] separator |}
    else Throw (ConfluentSchemaRegistryArgumentError
                  ("Invalid namespace: " ++ ToString ns)).
Proof.
  intros Hraw Hns. unfold getSubject.
  rewrite Hraw. simpl. rewrite Hns. simpl.
  now destruct (ToBoolean ns).
Qed.

End Facts.

Section Subject.
Context {engine : JSEngine} {avsc : Avsc} {types : Types}.
Import AvroHelper.

(** C1: for a schema whose parsed text has the non-empty string [ns] as
    namespace and the string [nm] as name, [getSubject] returns the
    subject named [ns], the separator, [nm] for every separator; for
    namespace [com.example] and name [Simple] that is
    [com.example.Simple] with separator [.] and [com.example-Simple]
    with separator [-]. *)
Theorem getSubject_joins_namespace_and_name
    (cs : ConfluentSchema) (avroSchema : AvroSchema) (raw : Value)
    (ns nm : string) :
  getRawAvroSchema (ConfluentSchema_object cs) = Normal raw ->
  Get raw "namespace" = Normal (JString ns) ->
  ns <> EmptyString ->
  Get raw "name" = Normal (JString nm) ->
  (forall separator : string,
      getSubject (ConfluentSchema_object cs) avroSchema separator
      = Normal {| name := ns ++ separator ++ nm |})
  /\ (ns = "com.example" -> nm = "Simple" ->
      getSubject (ConfluentSchema_object cs) avroSchema "."
      = Normal {| name := "com.example.Simple" |}
      /\ getSubject (ConfluentSchema_object cs) avroSchema "-"
         = Normal {| name := "com.example-Simple" |}).
Proof.
  intros Hraw Hns Hne Hnm.
  assert (Hjoin : forall separator : string,
             getSubject (ConfluentSchema_object cs) avroSchema separator
             = Normal {| name := ns ++ separator ++ nm |}).
  { intros separator.
    rewrite (getSubject_of_raw _ _ _ Hraw Hns).
    apply ToBoolean_JString in Hne. rewrite Hne, Hnm. reflexivity. }
  split; [exact Hjoin |].
  intros -> ->. split; apply Hjoin.
Qed.

(** C2: when the namespace of the parsed schema is absent ([undefined])
    or the empty string, [getSubject] throws the adapter's argument
    error, with the message [Invalid namespace: ] followed by the value
    read, and so returns no subject. *)
Theorem getSubject_requires_namespace
    (cs : ConfluentSchema) (avroSchema : AvroSchema) (separator : string)
    (raw ns : Value) :
  getRawAvroSchema (ConfluentSchema_object cs) = Normal raw ->
  Get raw "namespace" = Normal ns ->
  ns = JUndefined \/ ns = JString EmptyString ->
  getSubject (ConfluentSchema_object cs) avroSchema separator
  = Throw (ConfluentSchemaRegistryArgumentError
             ("Invalid namespace: " ++ ToString ns))
  /\ returns (getSubject (ConfluentSchema_object cs) avroSchema separator)
     = false.
Proof.
  intros Hraw Hns Hfalsy.
  rewrite (getSubject_of_raw _ _ _ Hraw Hns).
  destruct Hfalsy as [-> | ->]; simpl; split; reflexivity.
Qed.

(** C8: the compiled schema handed to [getSubject] has no influence on
    its outcome: with the same schema and separator, any two compiled
    schemas give the same subject or the same error. *)
Theorem getSubject_ignores_compiled_schema
    (schema : Value) (separator : string) (avroSchema1 avroSchema2 : AvroSchema) :
  getSubject schema avroSchema1 separator
  = getSubject schema avroSchema2 separator.
Proof. reflexivity. Qed.

(** C10: only the namespace is checked.  When the parsed schema is an
    object with a non-empty string namespace and no [name] property,
    [getSubject] returns, and the subject's name is the namespace
    followed by the separator and nothing else. *)
Theorem getSubject_without_name
    (cs : ConfluentSchema) (avroSchema : AvroSchema) (separator : string)
    (props : list (string * Value)) (ns : string) :
  getRawAvroSchema (ConfluentSchema_object cs) = Normal (JObject props) ->
  lookup "namespace" props = Some (JString ns) ->
  ns <> EmptyString ->
  lookup "name" props = None ->
  getSubject (ConfluentSchema_object cs) avroSchema separator
  = Normal {| name := ns ++ separator |}
  /\ ns ++ separator = Array_join [JString ns; JString EmptyString] separator.
Proof.
  intros Hraw Hns Hne Hnm.
  assert (Hget : Get (JObject props) "namespace" = Normal (JString ns))
    by (unfold Get; now rewrite Hns).
  rewrite (getSubject_of_raw _ _ _ Hraw Hget).
  apply ToBoolean_JString in Hne. rewrite Hne.
  unfold Get. rewrite Hnm. simpl.
  now rewrite append_empty_r.
Qed.

End Subject.

Section Compilation.
Context {engine : JSEngine} {avsc : Avsc} {types : Types}.
Import AvroHelper.

Lemma named_ToBoolean (avroSchema : AvroSchema) :
  named avroSchema <-> ToBoolean (nameOf avroSchema) = true.
Proof.
  unfold named, nameOf.
  destruct (AvroSchema_name avroSchema) as [s |].
  - rewrite ToBoolean_JString. split.
    + intros (s' & Heq & Hne). now injection Heq as ->.
    + intros Hne. now exists s.
  - split.
    + intros (s' & Heq & _). discriminate.
    + discriminate.
Qed.

(** C3: [validate] returns exactly when the compiled schema has a
    non-empty top-level name, and throws the adapter's argument error
    exactly when it has not; it throws nothing else. *)
Theorem validate_requires_name (avroSchema : AvroSchema) :
  (validate avroSchema = Normal tt <-> named avroSchema)
  /\ ((exists message : string,
         validate avroSchema
         = Throw (ConfluentSchemaRegistryArgumentError message))
      <-> ~ named avroSchema)
  /\ (forall e : JSError,
         validate avroSchema = Throw e ->
         e = ConfluentSchemaRegistryArgumentError
               ("Invalid name: " ++ ToString (nameOf avroSchema))).
Proof.
  rewrite named_ToBoolean. unfold validate.
  destruct (ToBoolean (nameOf avroSchema)); simpl.
  - split; [tauto |]. split.
    + split; [intros (m & H); discriminate | intros H; now elim H].
    + intros e H. discriminate.
  - split; [split; discriminate |]. split.
    + split; [intros _; discriminate | intros _; eauto].
    + intros e H. now injection H as <-.
Qed.

(** C4: for a [ConfluentSchema] holding schema text, [getAvroSchema]
    throws what [JSON.parse] throws on the text, throws what the
    compiler throws on the parsed text, and otherwise returns the
    compiled schema the compiler produced from it. *)
Theorem getAvroSchema_compiles_schema_text
    (cs : ConfluentSchema) (opts : option AvroOptions) (text : string) :
  schema cs = JString text ->
  (forall e : JSError,
      JSON_parse text = Throw e ->
      getAvroSchema (ConfluentSchema_object cs) opts = Throw e)
  /\ (forall (raw : Value) (e : JSError),
        JSON_parse text = Normal raw ->
        forSchema raw opts = Throw e ->
        getAvroSchema (ConfluentSchema_object cs) opts = Throw e)
  /\ (forall (raw : Value) (avroSchema : AvroSchema),
        JSON_parse text = Normal raw ->
        forSchema raw opts = Normal avroSchema ->
        getAvroSchema (ConfluentSchema_object cs) opts = Normal avroSchema).
Proof.
  intros Htext.
  assert (Heq : getAvroSchema (ConfluentSchema_object cs) opts
                = raw <- JSON_parse text;; forSchema raw opts).
  { unfold getAvroSchema. rewrite isRawAvroSchema_object. simpl bind.
    rewrite (getRawAvroSchema_text (ConfluentSchema_object cs) (text := text))
      by (rewrite Get_schema_object; now f_equal).
    reflexivity. }
  rewrite Heq. repeat split.
  - intros e ->. reflexivity.
  - intros raw e -> H. exact H.
  - intros raw a -> H. exact H.
Qed.

(** C9: an argument is taken for a raw schema exactly when its [name]
    and its [type] are both neither [null] nor [undefined], and is then
    compiled as it is; otherwise its [schema] property is compiled,
    after [JSON.parse] when that property is a string.  In particular
    the object of a [ConfluentSchema] that also carries a [name] other
    than [null] and [undefined] is compiled itself, and its schema text
    is not looked at. *)
Theorem getAvroSchema_classification
    (schema : Value) (opts : option AvroOptions) (n t : Value) :
  Get schema "name" = Normal n ->
  Get schema "type" = Normal t ->
  isRawAvroSchema schema = Normal (notNull n && notNull t)
  /\ (notNull n && notNull t = true ->
      getAvroSchema schema opts = forSchema schema opts)
  /\ (notNull n && notNull t = false ->
      getAvroSchema schema opts
      = s <- Get schema "schema";;
        rawSchema <- match s with
                     | JString text => JSON_parse text
                     | _ => Normal s
                     end;;
        forSchema rawSchema opts)
  /\ (forall (cs : ConfluentSchema) (nm : Value),
        notNull nm = true ->
        getAvroSchema (ConfluentSchema_named nm cs) opts
        = forSchema (ConfluentSchema_named nm cs) opts).
Proof.
  intros Hn Ht.
  assert (Hraw : isRawAvroSchema schema = Normal (notNull n && notNull t)).
  { unfold isRawAvroSchema. rewrite Hn. simpl bind.
    destruct (notNull n); [now rewrite Ht | reflexivity]. }
  split; [exact Hraw |]. unfold getAvroSchema. rewrite Hraw. simpl bind.
  split; [| split].
  - intros ->. reflexivity.
  - intros ->. unfold getRawAvroSchema.
    destruct (Get schema "schema") as [s | e]; reflexivity.
  - intros cs nm Hnm. unfold isRawAvroSchema. simpl. rewrite Hnm.
    reflexivity.
Qed.

End Compilation.

Section References.
Context {engine : JSEngine} {avsc : Avsc} {types : Types}.
Import AvroHelper.

(** C5: [getReferences] answers [undefined] for every schema. *)
Theorem getReferences_undefined (cs : ConfluentSchema) :
  getReferences cs = None.
Proof. reflexivity. Qed.

(** C6: [updateOptionsFromSchemaReferences] returns the options it was
    given, whatever the referred schemas. *)
Theorem updateOptionsFromSchemaReferences_identity
    {ProtocolOptions : Type} (options : ProtocolOptions)
    (referredSchemas : list Value) :
  updateOptionsFromSchemaReferences options referredSchemas = options.
Proof. reflexivity. Qed.

(** C7: [toConfluentSchema] returns a schema tagged [AVRO] whose text is
    the text of the response, unchanged; the adapter inlines nothing,
    so the other fields of the response, its references among them, do
    not bear on the result. *)
Theorem toConfluentSchema_keeps_text (data : SchemaResponse) :
  type (toConfluentSchema data) = AVRO
  /\ schema (toConfluentSchema data) = JString (resp_schema data)
  /\ (forall data' : SchemaResponse,
        resp_schema data' = resp_schema data ->
        toConfluentSchema data' = toConfluentSchema data).
Proof.
  repeat split. intros data' H. unfold toConfluentSchema. now rewrite H.
Qed.

End References.

(** * Further properties of the adapter *)

Lemma append_assoc (a b c : string) : (a ++ b) ++ c = a ++ b ++ c.
Proof.
  induction a as [| x a IH]; simpl.
  - reflexivity.
  - now rewrite IH.
Qed.

Lemma append_not_empty (a b : string) :
  a <> EmptyString -> a ++ b <> EmptyString.
Proof. destruct a; [congruence | discriminate]. Qed.

Section Edges.
Context {engine : JSEngine} {avsc : Avsc} {types : Types}.
Import AvroHelper.



Lemma Get_nullish (v : Value) (p : string) :
  isNullish v = true -> Get v p = Throw (TypeError (cannotRead v p)).
Proof. destruct v; simpl; intros H; try discriminate; reflexivity. Qed.


Lemma getRawAvroSchema_object (cs : ConfluentSchema) :
  getRawAvroSchema (ConfluentSchema_object cs)
  = match schema cs with
    | JString text => JSON_parse text
    | _ => Normal (schema cs)
    end.
Proof. reflexivity. Qed.

Lemma getAvroSchema_object (cs : ConfluentSchema) (opts : option AvroOptions) :
  getAvroSchema (ConfluentSchema_object cs) opts
  = rawSchema <- getRawAvroSchema (ConfluentSchema_object cs);;
    forSchema rawSchema opts.
Proof. reflexivity. Qed.

(** X1: when [JSON.parse] throws on the schema text, [getSubject] throws
    the same value; the namespace is not looked at and no argument error
    is built. *)
Theorem getSubject_propagates_parse_error
    (cs : ConfluentSchema) (avroSchema : AvroSchema) (separator : string)
    (text : string) (e : JSError) :
  schema cs = JString text ->
  JSON_parse text = Throw e ->
  getSubject (ConfluentSchema_object cs) avroSchema separator = Throw e.
Proof.
  intros Htext Hparse. unfold getSubject.
  rewrite getRawAvroSchema_object, Htext, Hparse. reflexivity.
Qed.

(** X2: when the schema resolves to [null] or [undefined] (schema text
    [null], or an argument without a [schema] property), [getSubject]
    throws the [TypeError] of reading [namespace] from it, not the
    adapter's argument error. *)
Theorem getSubject_nullish_schema
    (schema : Value) (avroSchema : AvroSchema) (separator : string)
    (raw : Value) :
  getRawAvroSchema schema = Normal raw ->
  isNullish raw = true ->
  getSubject schema avroSchema separator
  = Throw (TypeError (cannotRead raw "namespace")).
Proof.
  intros Hraw Hnull. unfold getSubject. rewrite Hraw. simpl bind.
  now rewrite (Get_nullish raw "namespace" Hnull).
Qed.



(** X5: the subject does not keep the boundary between namespace and
    name.  Two schemas whose namespace and name are [x sep y] with [z],
    and [x] with [y sep z], get the same subject for separator [sep]. *)
Theorem getSubject_boundary_is_lost
    (schema1 schema2 : Value) (avroSchema : AvroSchema) (separator : string)
    (raw1 raw2 : Value) (x y z : string) :
  x <> EmptyString ->
  getRawAvroSchema schema1 = Normal raw1 ->
  Get raw1 "namespace" = Normal (JString (x ++ separator ++ y)) ->
  Get raw1 "name" = Normal (JString z) ->
  getRawAvroSchema schema2 = Normal raw2 ->
  Get raw2 "namespace" = Normal (JString x) ->
  Get raw2 "name" = Normal (JString (y ++ separator ++ z)) ->
  getSubject schema1 avroSchema separator
  = getSubject schema2 avroSchema separator
  /\ getSubject schema2 avroSchema separator
     = Normal {| name := x ++ separator ++ y ++ separator ++ z |}.
Proof.
  intros Hx Hraw1 Hns1 Hnm1 Hraw2 Hns2 Hnm2.
  assert (Hxy : ToBoolean (JString (x ++ separator ++ y)) = true)
    by (apply ToBoolean_JString; now apply append_not_empty).
  assert (Hx' : ToBoolean (JString x) = true) by now apply ToBoolean_JString.
  rewrite (getSubject_of_raw _ _ _ Hraw1 Hns1), Hxy, Hnm1.
  rewrite (getSubject_of_raw _ _ _ Hraw2 Hns2), Hx', Hnm2.
  simpl. rewrite !append_assoc. split; reflexivity.
Qed.


(** X7: handing over the schema already parsed changes nothing.  When
    [JSON.parse] of the text returns a value that is not itself a
    string, the schema holding the text and the schema holding that
    value get the same subject and the same compilation outcome. *)
Theorem parsed_schema_equals_text
    (t : SchemaType) (text : string) (raw : Value) (avroSchema : AvroSchema)
    (separator : string) (opts : option AvroOptions) :
  JSON_parse text = Normal raw ->
  (forall s : string, raw <> JString s) ->
  getSubject (ConfluentSchema_object {| type := t; schema := JString text |})
    avroSchema separator
  = getSubject (ConfluentSchema_object {| type := t; schema := raw |})
      avroSchema separator
  /\ getAvroSchema
       (ConfluentSchema_object {| type := t; schema := JString text |}) opts
     = getAvroSchema
         (ConfluentSchema_object {| type := t; schema := raw |}) opts.
Proof.
  intros Hparse Hraw.
  assert (Heq : getRawAvroSchema
                  (ConfluentSchema_object {| type := t; schema := JString text |})
                = getRawAvroSchema
                    (ConfluentSchema_object {| type := t; schema := raw |})).
  { rewrite !getRawAvroSchema_object. cbn [schema]. rewrite Hparse.
    destruct raw; try reflexivity. now elim (Hraw s). }
  unfold getSubject. rewrite !getAvroSchema_object, Heq. split; reflexivity.
Qed.

(** X8: a raw schema whose [name] and [type] are set compiles to the same
    outcome whether it is handed to [getAvroSchema] as it is or as the
    [schema] of a [ConfluentSchema]: in both cases the compiler receives
    the raw schema. *)
Theorem getAvroSchema_wrapping_named_raw
    (t : SchemaType) (raw : Value) (opts : option AvroOptions) (n ty : Value) :
  Get raw "name" = Normal n ->
  notNull n = true ->
  Get raw "type" = Normal ty ->
  notNull ty = true ->
  getAvroSchema raw opts = forSchema raw opts
  /\ getAvroSchema (ConfluentSchema_object {| type := t; schema := raw |}) opts
     = forSchema raw opts.
Proof.
  intros Hn Hnn Hty Hnty. split.
  - unfold getAvroSchema, isRawAvroSchema.
    rewrite Hn. simpl bind. rewrite Hnn, Hty. simpl bind. now rewrite Hnty.
  - rewrite getAvroSchema_object, getRawAvroSchema_object. cbn [schema].
    destruct raw; try reflexivity.
    simpl in Hn. injection Hn as <-. discriminate.
Qed.

(** X9: a raw schema handed to [getAvroSchema] without a [name] (or
    without a [type]) is not compiled.  It is taken for a
    [ConfluentSchema], and when it has no [schema] property the compiler
    receives [undefined] in its place. *)
Theorem getAvroSchema_unnamed_raw
    (v : Value) (opts : option AvroOptions) (n ty : Value) :
  Get v "name" = Normal n ->
  Get v "type" = Normal ty ->
  notNull n && notNull ty = false ->
  Get v "schema" = Normal JUndefined ->
  getAvroSchema v opts = forSchema JUndefined opts.
Proof.
  intros Hn Hty Hnot Hschema.
  unfold getAvroSchema, isRawAvroSchema, getRawAvroSchema.
  rewrite Hn. simpl bind.
  destruct (notNull n); simpl in Hnot.
  - rewrite Hty. simpl bind. rewrite Hnot, Hschema. reflexivity.
  - rewrite Hschema. reflexivity.
Qed.

(** X10: on [null] or [undefined] in place of the schema, [getAvroSchema]
    throws the [TypeError] of reading [name] and [getSubject] the one of
    reading [schema]; neither reaches the parser or the compiler. *)
Theorem nullish_argument_is_type_error
    (v : Value) (opts : option AvroOptions) (avroSchema : AvroSchema)
    (separator : string) :
  isNullish v = true ->
  getAvroSchema v opts = Throw (TypeError (cannotRead v "name"))
  /\ getSubject v avroSchema separator
     = Throw (TypeError (cannotRead v "schema")).
Proof.
  intros Hnull. split.
  - unfold getAvroSchema, isRawAvroSchema.
    now rewrite (Get_nullish v "name" Hnull).
  - unfold getSubject, getRawAvroSchema.
    now rewrite (Get_nullish v "schema" Hnull).
Qed.

(** X11: a schema rebuilt from a registry response is never taken for a
    raw schema: compiling it is [JSON.parse] of the response's text
    followed by the compiler, whatever the text holds. *)
Theorem response_is_compiled_from_text
    (data : SchemaResponse) (opts : option AvroOptions) :
  isRawAvroSchema (ConfluentSchema_object (toConfluentSchema data))
  = Normal false
  /\ getAvroSchema (ConfluentSchema_object (toConfluentSchema data)) opts
     = rawSchema <- JSON_parse (resp_schema data);; forSchema rawSchema opts.
Proof. split; reflexivity. Qed.

(** X12: a schema that parses to a boolean, a number, a string or an
    array (a primitive type name or a union, say) has no namespace to
    read: [getSubject] throws the argument error for an [undefined]
    namespace. *)
Theorem getSubject_needs_an_object
    (schema : Value) (avroSchema : AvroSchema) (separator : string)
    (raw : Value) :
  getRawAvroSchema schema = Normal raw ->
  isNullish raw = false ->
  (forall props : list (string * Value), raw <> JObject props) ->
  getSubject schema avroSchema separator
  = Throw (ConfluentSchemaRegistryArgumentError "Invalid namespace: undefined").
Proof.
  intros Hraw Hnull Hobj.
  assert (Hns : Get raw "namespace" = Normal JUndefined).
  { destruct raw; try reflexivity; try discriminate.
    now elim (Hobj properties). }
  rewrite (getSubject_of_raw _ _ _ Hraw Hns). reflexivity.
Qed.

End Edges.

(** * The statements on the reference environment *)

Module Runs.
Import AvroHelper Reference.

Lemma getSubject_joins_namespace_and_name_witness :
  @getSubject engine avsc (object (avro simple))
    anonymous "."
  = Normal {| name := "com.example.Simple" |}
  /\ @getSubject engine avsc (object (avro simple))
       anonymous "-"
     = Normal {| name := "com.example-Simple" |}.
Proof.
  apply (@getSubject_joins_namespace_and_name engine avsc types
           (avro simple) anonymous
           simple_parsed "com.example" "Simple");
    try reflexivity.
  discriminate.
Defined.

Lemma getSubject_requires_namespace_witness :
  @getSubject engine avsc (object (avro no_namespace))
    anonymous "."
  = Throw (ConfluentSchemaRegistryArgumentError "Invalid namespace: undefined").
Proof.
  apply (@getSubject_requires_namespace engine avsc types
           (avro no_namespace) anonymous "."
           (JObject [ ("type", JString "record"); ("name", JString "Simple");
                      ("fields", JArray []) ])
           JUndefined).
  - reflexivity.
  - reflexivity.
  - left. reflexivity.
Defined.

Lemma getSubject_without_name_witness :
  @getSubject engine avsc (object (avro no_name))
    anonymous "-"
  = Normal {| name := "com.example-" |}.
Proof.
  apply (@getSubject_without_name engine avsc types
           (avro no_name) anonymous "-"
           [ ("type", JString "record"); ("namespace", JString "com.example");
             ("fields", JArray []) ]
           "com.example").
  - reflexivity.
  - reflexivity.
  - discriminate.
  - reflexivity.
Defined.

Lemma getAvroSchema_compiles_schema_text_witness :
  @getAvroSchema engine avsc (object (avro simple)) None
  = Normal {| typeName := Some "com.example.Simple" |}
  /\ @getAvroSchema engine avsc (object (avro truncated)) None
     = Throw (SyntaxError "Unexpected token in JSON")
  /\ @getAvroSchema engine avsc (object (avro unknown_type)) None
     = Throw (Error "unknown type: recrod").
Proof.
  split; [| split].
  - apply (proj2 (proj2 (@getAvroSchema_compiles_schema_text engine avsc types
             (avro simple) None simple eq_refl))
             simple_parsed);
      reflexivity.
  - apply (proj1 (@getAvroSchema_compiles_schema_text engine avsc types
             (avro truncated) None truncated
             eq_refl)).
    reflexivity.
  - apply (proj1 (proj2 (@getAvroSchema_compiles_schema_text engine avsc types
             (avro unknown_type) None
             unknown_type eq_refl))
             (JObject [("type", JString "recrod"); ("name", JString "Simple")]));
      reflexivity.
Defined.

Lemma getAvroSchema_classification_witness :
  @isRawAvroSchema engine simple_parsed = Normal true
  /\ @getAvroSchema engine avsc simple_parsed None
     = Normal {| typeName := Some "com.example.Simple" |}
  /\ @getAvroSchema engine avsc
       (@ConfluentSchema_named engine types (JString "Simple") (avro simple))
       None
     = Throw (Error "unknown type: AVRO").
Proof.
  destruct (@getAvroSchema_classification engine avsc types
              simple_parsed None (JString "Simple") (JString "record")
              eq_refl eq_refl) as (Hraw & Hcompile & _ & Hnamed).
  split; [| split].
  - exact Hraw.
  - rewrite (Hcompile eq_refl). reflexivity.
  - rewrite (Hnamed (avro simple) (JString "Simple") eq_refl). reflexivity.
Defined.

(** The registration example of the usage guide: its subject is
    [examples.RandomTest], and it compiles to a type of that name, which
    [validate] accepts. *)
Example random_test_subject :
  @getSubject engine avsc (object (avro random_test)) anonymous "."
  = Normal {| name := "examples.RandomTest" |}.
Proof. reflexivity. Qed.

Example random_test_compiles :
  (a <- @getAvroSchema engine avsc (object (avro random_test)) None;;
   @validate engine avsc a)%completion
  = Normal tt.
Proof. reflexivity. Qed.

(** A primitive schema compiles and has no name: [validate] refuses it. *)
Example primitive_is_refused :
  (a <- @getAvroSchema engine avsc (object (avro (json "'string'"))) None;;
   @validate engine avsc a)%completion
  = Throw (ConfluentSchemaRegistryArgumentError "Invalid name: undefined").
Proof. reflexivity. Qed.

(** Schema text that is the JSON [null] has no properties to read. *)
Example null_text_subject :
  @getSubject engine avsc (object (avro "null")) anonymous "."
  = Throw (TypeError "Cannot read properties of null (reading 'namespace')").
Proof. reflexivity. Qed.

(** A schema handed over already parsed is not parsed again. *)
Example parsed_schema_subject :
  @getSubject engine avsc
    (object (avro_parsed simple_parsed)) anonymous "-"
  = Normal {| name := "com.example-Simple" |}.
Proof. reflexivity. Qed.

End Runs.

Module EdgeRuns.
Import AvroHelper Reference.

Lemma getSubject_propagates_parse_error_witness :
  @getSubject engine avsc (object (avro truncated)) anonymous "."
  = Throw (SyntaxError "Unexpected token in JSON").
Proof.
  apply (@getSubject_propagates_parse_error engine avsc types
           (avro truncated) anonymous "." truncated); reflexivity.
Defined.

Lemma getSubject_nullish_schema_witness :
  @getSubject engine avsc (object (avro "null")) anonymous "."
  = Throw (TypeError "Cannot read properties of null (reading 'namespace')")
  /\ @getSubject engine avsc (JObject [("type", JString "AVRO")]) anonymous "."
     = Throw (TypeError
                "Cannot read properties of undefined (reading 'namespace')").
Proof.
  split.
  - apply (@getSubject_nullish_schema engine avsc
             (object (avro "null")) anonymous "." JNull); reflexivity.
  - apply (@getSubject_nullish_schema engine avsc
             (JObject [("type", JString "AVRO")]) anonymous "." JUndefined);
      reflexivity.
Defined.



Lemma getSubject_boundary_is_lost_witness :
  @getSubject engine avsc (object (avro simple)) anonymous "."
  = @getSubject engine avsc (object (avro split_earlier)) anonymous "."
  /\ @getSubject engine avsc (object (avro split_earlier)) anonymous "."
     = Normal {| name := "com.example.Simple" |}.
Proof.
  apply (@getSubject_boundary_is_lost engine avsc
           (object (avro simple)) (object (avro split_earlier)) anonymous "."
           simple_parsed
           (JObject [ ("type", JString "record");
                      ("name", JString "example.Simple");
                      ("namespace", JString "com"); ("fields", JArray []) ])
           "com" "example" "Simple"); try reflexivity.
  discriminate.
Defined.


Lemma parsed_schema_equals_text_witness :
  @getSubject engine avsc (object (tagged AVRO (JString simple))) anonymous "-"
  = @getSubject engine avsc (object (tagged AVRO simple_parsed)) anonymous "-"
  /\ @getAvroSchema engine avsc (object (tagged AVRO (JString simple))) None
     = @getAvroSchema engine avsc (object (tagged AVRO simple_parsed)) None.
Proof.
  apply (@parsed_schema_equals_text engine avsc types AVRO simple
           simple_parsed anonymous "-" None).
  - reflexivity.
  - intros s H. discriminate H.
Defined.

Lemma getAvroSchema_wrapping_named_raw_witness :
  @getAvroSchema engine avsc simple_parsed None
  = Normal {| typeName := Some "com.example.Simple" |}
  /\ @getAvroSchema engine avsc (object (tagged AVRO simple_parsed)) None
     = Normal {| typeName := Some "com.example.Simple" |}.
Proof.
  apply (@getAvroSchema_wrapping_named_raw engine avsc types AVRO
           simple_parsed None (JString "Simple") (JString "record"));
    reflexivity.
Defined.

Lemma getAvroSchema_unnamed_raw_witness :
  @getAvroSchema engine avsc array_of_strings None
  = Throw (Error "invalid type").
Proof.
  apply (@getAvroSchema_unnamed_raw engine avsc array_of_strings None
           JUndefined (JString "array")); reflexivity.
Defined.

Lemma nullish_argument_is_type_error_witness :
  @getAvroSchema engine avsc JNull None
  = Throw (TypeError "Cannot read properties of null (reading 'name')")
  /\ @getSubject engine avsc JNull anonymous "."
     = Throw (TypeError "Cannot read properties of null (reading 'schema')").
Proof.
  apply (@nullish_argument_is_type_error engine avsc JNull None anonymous ".").
  reflexivity.
Defined.

Lemma getSubject_needs_an_object_witness :
  @getSubject engine avsc (object (avro union)) anonymous "."
  = Throw (ConfluentSchemaRegistryArgumentError "Invalid namespace: undefined").
Proof.
  apply (@getSubject_needs_an_object engine avsc
           (object (avro union)) anonymous "."
           (JArray [JString "null"; JString "string"])).
  - reflexivity.
  - reflexivity.
  - intros props H. discriminate H.
Defined.

End EdgeRuns.
